(** * hoomd.mpcd: the MPCD integrator front end

    A shallow embedding of [src/hoomd/mpcd/__init__.py] (class [integrator]:
    [__init__], [set_params], [update_methods]) together with the facts the
    specification states about it.

    The Python code mutates two objects: the integrator itself ([self]) and
    the ambient [hoomd.context.current].  Both live in one [world] value that
    is threaded through a small state-and-exception monad.  A raised
    exception keeps the state reached so far, exactly as an exception that
    leaves a Python method keeps every assignment made before it. *)

From Stdlib Require Import ZArith List String Ascii Bool Lia Arith PeanoNat.
From Stdlib Require Import SpecFloat DecimalString.
Import ListNotations.

Local Open Scope string_scope.
Local Open Scope Z_scope.

(* ------------------------------------------------------------------ *)
(** ** Python values *)

(** The values a caller passes for [aniso]: [None], a [bool], an [int] or a
    [str].  (Unhashable values, for which the dictionary test itself fails,
    are outside this universe.) *)
Inductive pyval : Type :=
| PyNone
| PyBool (b : bool)
| PyInt (z : Z)
| PyStr (s : string).

(** A Python [float]: an IEEE 754 binary64 datum.  [dt] is only stored and
    handed on; no arithmetic is done on it here. *)
Definition pyfloat : Type := spec_float.

(** Python [==] on these values.  [bool] is a subclass of [int]:
    [True == 1] and [False == 0] (with equal hashes), which is what a
    dictionary lookup sees. *)
Definition py_eq (a b : pyval) : bool :=
  match a, b with
  | PyNone, PyNone => true
  | PyBool x, PyBool y => Bool.eqb x y
  | PyBool x, PyInt z | PyInt z, PyBool x => Z.eqb z (if x then 1 else 0)
  | PyInt x, PyInt y => Z.eqb x y
  | PyStr x, PyStr y => String.eqb x y
  | _, _ => false
  end.

(** [x is None] *)
Definition py_is_none (a : pyval) : bool :=
  match a with PyNone => true | _ => false end.

(** [d[k]] on a dictionary kept as an association list; [None] stands for
    the key being absent ([k in d] is false). *)
Fixpoint dict_get {V : Type} (k : pyval) (d : list (pyval * V)) : option V :=
  match d with
  | [] => None
  | (k', v) :: d' => if py_eq k k' then Some v else dict_get k d'
  end.

(** [k in d] *)
Definition py_in {V : Type} (k : pyval) (d : list (pyval * V)) : bool :=
  match dict_get k d with Some _ => true | None => false end.

(** [str(v)], as ["{}".format(v)] prints it. *)
Definition py_str (v : pyval) : string :=
  match v with
  | PyNone => "None"
  | PyBool true => "True"
  | PyBool false => "False"
  | PyInt z => NilZero.string_of_int (Z.to_int z)
  | PyStr s => s
  end.

(** The line feed that ends every message of the module. *)
Definition nl : string := String (ascii_of_nat 10) EmptyString.

(* ------------------------------------------------------------------ *)
(** ** Exceptions and results *)

(** The exceptions that can leave the methods.  [ConfigurationError] is the
    class the specification names; no statement of the module raises it. *)
Inductive exn : Type :=
| RuntimeError (m : string)
| ValueError (m : string)
| ZeroDivisionError
| AttributeError
| ConfigurationError (m : string).

Inductive result (A : Type) : Type :=
| Ok (a : A)
| Raise (e : exn).
Arguments Ok {A} a.
Arguments Raise {A} e.

(** [a % b] on Python integers: floored, the sign of the divisor (as
    [Z.modulo]); a zero divisor raises. *)
Definition py_mod (a b : Z) : result Z :=
  if b =? 0 then Raise ZeroDivisionError else Ok (a mod b).

(* ------------------------------------------------------------------ *)
(** ** The objects *)

(** A reference to a C++ object exported by the compiled modules. *)
Definition handle : Type := nat.

(** [_md.IntegratorAnisotropicMode] *)
Inductive IntegratorAnisotropicMode : Type :=
| Automatic
| Anisotropic
| Isotropic.

(** The C++ [_mpcd.Integrator] as the Python code drives it: every setter
    stores its argument, every remover clears the slot. *)
Record cpp_integrator_t : Type := mk_cpp {
  mpcd_data : handle;
  deltaT : pyfloat;
  anisotropic_mode : IntegratorAnisotropicMode;
  cpp_methods : list handle;
  streaming_method : option handle;
  collision_method : option handle;
  mpcd_communicator : option handle
}.

(** A streaming or a collision method object of [hoomd.mpcd.stream] /
    [hoomd.mpcd.collide]: the attributes the integrator reads. *)
Record mpcd_method : Type := mk_method {
  period : Z;
  _cpp : handle
}.

(** An MD integration method of [hoomd.context.current.integration_methods]. *)
Record integration_method : Type := mk_imethod {
  cpp_method : handle
}.

(** [hoomd.context.current.mpcd] *)
Record mpcd_system : Type := mk_system {
  data : handle;
  comm : option handle;
  _stream : option mpcd_method;
  _collide : option mpcd_method
}.

(** What the module tells [hoomd.context.msg] and [hoomd.util], in order. *)
Inductive event : Type :=
| MsgError (m : string)
| MsgWarning (m : string)
| PrintStatusLine
| QuietStatus
| UnquietStatus.

(** [hoomd.context.current].  [system_integrator] is set once
    [system.setIntegrator] has been given this integrator's C++ object. *)
Record context : Type := mk_context {
  mpcd : option mpcd_system;
  integration_methods : list integration_method;
  system_integrator : bool;
  msg : list event
}.

(** The attributes of an [integrator] instance. *)
Record integrator : Type := mk_integrator {
  supports_methods : bool;
  dt : pyfloat;
  aniso : pyval;
  metadata_fields : list string;
  cpp_integrator : option cpp_integrator_t
}.

Record world : Type := mk_world {
  current : context;
  self : integrator
}.

(* ------------------------------------------------------------------ *)
(** ** The monad *)

Definition M (A : Type) : Type := world -> result A * world.

Definition ret {A : Type} (a : A) : M A := fun w => (Ok a, w).

Definition bind {A B : Type} (c : M A) (k : A -> M B) : M B :=
  fun w =>
    match c w with
    | (Ok a, w') => k a w'
    | (Raise e, w') => (Raise e, w')
    end.

Definition raise {A : Type} (e : exn) : M A := fun w => (Raise e, w).

Definition lift {A : Type} (r : result A) : M A := fun w => (r, w).

Declare Scope py_scope.
Delimit Scope py_scope with py.
Notation "x <- c ;; k" := (bind c (fun x => k))
  (at level 61, c at next level, right associativity) : py_scope.
Notation "c ;; k" := (bind c (fun _ => k))
  (at level 61, right associativity) : py_scope.
Local Open Scope py_scope.

(** [for x in l: body x] *)
Fixpoint for_each {A : Type} (l : list A) (body : A -> M unit) : M unit :=
  match l with
  | [] => ret tt
  | x :: l' => body x ;; for_each l' body
  end.

Definition get_context : M context := fun w => (Ok (current w), w).
Definition get_self : M integrator := fun w => (Ok (self w), w).

Definition modify_context (f : context -> context) : M unit :=
  fun w => (Ok tt, mk_world (f (current w)) (self w)).
Definition modify_self (f : integrator -> integrator) : M unit :=
  fun w => (Ok tt, mk_world (current w) (f (self w))).

Definition emit (e : event) : M unit :=
  modify_context (fun c =>
    mk_context (mpcd c) (integration_methods c) (system_integrator c)
               (msg c ++ [e])).

(** [hoomd.context.msg.error], [hoomd.context.msg.warning] *)
Definition msg_error (m : string) : M unit := emit (MsgError m).
Definition msg_warning (m : string) : M unit := emit (MsgWarning m).

(** [hoomd.util.print_status_line], [quiet_status], [unquiet_status] *)
Definition print_status_line : M unit := emit PrintStatusLine.
Definition quiet_status : M unit := emit QuietStatus.
Definition unquiet_status : M unit := emit UnquietStatus.

(** [hoomd.context.current.mpcd.<attr>]: reading an attribute of [None]
    raises. *)
Definition current_mpcd : M mpcd_system :=
  c <- get_context ;;
  match mpcd c with
  | Some s => ret s
  | None => raise AttributeError
  end.

(** Attribute assignments on [self]. *)
Definition set_supports_methods (b : bool) : M unit :=
  modify_self (fun s => mk_integrator b (dt s) (aniso s) (metadata_fields s)
                                      (cpp_integrator s)).
Definition set_dt (d : pyfloat) : M unit :=
  modify_self (fun s => mk_integrator (supports_methods s) d (aniso s)
                                      (metadata_fields s) (cpp_integrator s)).
Definition set_aniso (a : pyval) : M unit :=
  modify_self (fun s => mk_integrator (supports_methods s) (dt s) a
                                      (metadata_fields s) (cpp_integrator s)).
Definition set_metadata_fields (l : list string) : M unit :=
  modify_self (fun s => mk_integrator (supports_methods s) (dt s) (aniso s) l
                                      (cpp_integrator s)).
Definition set_cpp_integrator (c : option cpp_integrator_t) : M unit :=
  modify_self (fun s => mk_integrator (supports_methods s) (dt s) (aniso s)
                                      (metadata_fields s) c).

(** [self.cpp_integrator.<method>(...)]: a call on the C++ object, which
    must be there. *)
Definition cpp_call (f : cpp_integrator_t -> cpp_integrator_t) : M unit :=
  s <- get_self ;;
  match cpp_integrator s with
  | Some c => set_cpp_integrator (Some (f c))
  | None => raise AttributeError
  end.

(** The methods of the C++ integrator. *)
Definition setDeltaT (d : pyfloat) (c : cpp_integrator_t) : cpp_integrator_t :=
  mk_cpp (mpcd_data c) d (anisotropic_mode c) (cpp_methods c)
         (streaming_method c) (collision_method c) (mpcd_communicator c).
Definition setAnisotropicMode (m : IntegratorAnisotropicMode)
    (c : cpp_integrator_t) : cpp_integrator_t :=
  mk_cpp (mpcd_data c) (deltaT c) m (cpp_methods c)
         (streaming_method c) (collision_method c) (mpcd_communicator c).
Definition removeAllIntegrationMethods (c : cpp_integrator_t)
    : cpp_integrator_t :=
  mk_cpp (mpcd_data c) (deltaT c) (anisotropic_mode c) []
         (streaming_method c) (collision_method c) (mpcd_communicator c).
Definition addIntegrationMethod (m : handle) (c : cpp_integrator_t)
    : cpp_integrator_t :=
  mk_cpp (mpcd_data c) (deltaT c) (anisotropic_mode c) (cpp_methods c ++ [m])
         (streaming_method c) (collision_method c) (mpcd_communicator c).
Definition setStreamingMethod (m : handle) (c : cpp_integrator_t)
    : cpp_integrator_t :=
  mk_cpp (mpcd_data c) (deltaT c) (anisotropic_mode c) (cpp_methods c)
         (Some m) (collision_method c) (mpcd_communicator c).
Definition removeStreamingMethod (c : cpp_integrator_t) : cpp_integrator_t :=
  mk_cpp (mpcd_data c) (deltaT c) (anisotropic_mode c) (cpp_methods c)
         None (collision_method c) (mpcd_communicator c).
Definition setCollisionMethod (m : handle) (c : cpp_integrator_t)
    : cpp_integrator_t :=
  mk_cpp (mpcd_data c) (deltaT c) (anisotropic_mode c) (cpp_methods c)
         (streaming_method c) (Some m) (mpcd_communicator c).
Definition removeCollisionMethod (c : cpp_integrator_t) : cpp_integrator_t :=
  mk_cpp (mpcd_data c) (deltaT c) (anisotropic_mode c) (cpp_methods c)
         (streaming_method c) None (mpcd_communicator c).
Definition setMPCDCommunicator (m : handle) (c : cpp_integrator_t)
    : cpp_integrator_t :=
  mk_cpp (mpcd_data c) (deltaT c) (anisotropic_mode c) (cpp_methods c)
         (streaming_method c) (collision_method c) (Some m).

(** [_mpcd.Integrator(data, dt)]: a new C++ integrator, nothing attached,
    in the automatic anisotropic mode. *)
Definition Integrator (d : handle) (t : pyfloat) : cpp_integrator_t :=
  mk_cpp d t Automatic [] None None None.

(** [hoomd.context.current.system.setIntegrator(self.cpp_integrator)] *)
Definition system_setIntegrator : M unit :=
  modify_context (fun c =>
    mk_context (mpcd c) (integration_methods c) true (msg c)).

(* ------------------------------------------------------------------ *)
(** ** The base class

    [hoomd.integrate._integrator] is not among the sources: its constructor
    and its [check_initialization] are taken as given, with no assumption
    on what they do to the state or on whether they raise. *)
Class _integrator : Type := {
  base_init : M unit;
  check_initialization : M unit
}.

(* ------------------------------------------------------------------ *)
(** ** class integrator *)

(** [integrator._aniso_modes] *)
Definition _aniso_modes : list (pyval * IntegratorAnisotropicMode) :=
  [ (PyNone, Automatic);
    (PyBool true, Anisotropic);
    (PyBool false, Isotropic) ].

Section Integrator.
Context `{Base : _integrator}.

(** [integrator.set_params(self, dt=None, aniso=None)] *)
Definition set_params (new_dt : option pyfloat) (new_aniso : pyval) : M unit :=
  print_status_line ;;
  check_initialization ;;
  match new_dt with
  | Some d => set_dt d ;; cpp_call (setDeltaT d)
  | None => ret tt
  end ;;
  if py_is_none new_aniso then ret tt
  else
    anisoMode <-
      match dict_get new_aniso _aniso_modes with
      | Some m => ret m
      | None =>
          msg_error ("mpcd.integrate: unknown anisotropic mode "
                       ++ py_str new_aniso ++ "." ++ nl) ;;
          raise (RuntimeError "Error setting anisotropic integration mode.")
      end ;;
    set_aniso new_aniso ;;
    cpp_call (setAnisotropicMode anisoMode).

(** [integrator.__init__(self, dt, aniso=None)] *)
Definition __init__ (new_dt : pyfloat) (new_aniso : pyval) : M unit :=
  c <- get_context ;;
  match mpcd c with
  | None =>
      msg_error ("mpcd.integrate: an MPCD system must be initialized before the integrator" ++ nl) ;;
      raise (RuntimeError "MPCD system not initialized")
  | Some _ => ret tt
  end ;;
  base_init ;;
  set_supports_methods true ;;
  set_dt new_dt ;;
  set_aniso new_aniso ;;
  set_metadata_fields ["dt"; "aniso"] ;;
  sys <- current_mpcd ;;
  s <- get_self ;;
  set_cpp_integrator (Some (Integrator (data sys) (dt s))) ;;
  sys' <- current_mpcd ;;
  match comm sys' with
  | Some k => cpp_call (setMPCDCommunicator k)
  | None => ret tt
  end ;;
  system_setIntegrator ;;
  s' <- get_self ;;
  if py_is_none (aniso s') then ret tt
  else
    quiet_status ;;
    set_params None new_aniso ;;
    unquiet_status.

(** [integrator.update_methods(self)] *)
Definition update_methods : M unit :=
  check_initialization ;;
  cpp_call removeAllIntegrationMethods ;;
  c <- get_context ;;
  for_each (integration_methods c)
           (fun m => cpp_call (addIntegrationMethod (cpp_method m))) ;;
  sys <- current_mpcd ;;
  let stream := _stream sys in
  match stream with
  | Some s => cpp_call (setStreamingMethod (_cpp s))
  | None =>
      msg_warning ("Running mpcd without a streaming method!" ++ nl) ;;
      cpp_call removeStreamingMethod
  end ;;
  sys' <- current_mpcd ;;
  let collide := _collide sys' in
  match collide with
  | Some k =>
      match stream with
      | Some s =>
          r <- lift (py_mod (period k) (period s)) ;;
          if negb (r =? 0) then
            msg_error ("mpcd.integrate: collision period must be multiple of integration period" ++ nl) ;;
            raise (ValueError "Collision period must be multiple of integration period")
          else ret tt
      | None => ret tt
      end ;;
      cpp_call (setCollisionMethod (_cpp k))
  | None =>
      msg_warning ("Running mpcd without a collision method!" ++ nl) ;;
      cpp_call removeCollisionMethod
  end.

End Integrator.

(* ------------------------------------------------------------------ *)
(** ** States named in the statements *)

(** The integrator with its C++ object replaced. *)
Definition with_cpp (s : integrator) (c : cpp_integrator_t) : integrator :=
  mk_integrator (supports_methods s) (dt s) (aniso s) (metadata_fields s)
                (Some c).

(** The context with one more event. *)
Definition logged (c : context) (e : event) : context :=
  mk_context (mpcd c) (integration_methods c) (system_integrator c)
             (msg c ++ [e]).

(** The C++ integrator with another list of MD methods. *)
Definition with_methods (c : cpp_integrator_t) (l : list handle)
    : cpp_integrator_t :=
  mk_cpp (mpcd_data c) (deltaT c) (anisotropic_mode c) l
         (streaming_method c) (collision_method c) (mpcd_communicator c).

(** The C++ integrator once [update_methods] has reloaded the MD methods of
    the context. *)
Definition reloaded (ctx : context) (c : cpp_integrator_t) : cpp_integrator_t :=
  with_methods c (map cpp_method (integration_methods ctx)).

(** The check of the base class lets the call through and leaves the state
    as it is. *)
Definition initialized `{Base : _integrator} (w : world) : Prop :=
  check_initialization w = (Ok tt, w).

(** The two messages [update_methods] can warn with, and its error. *)
Definition no_stream_warning : event :=
  MsgWarning ("Running mpcd without a streaming method!" ++ nl).
Definition no_collide_warning : event :=
  MsgWarning ("Running mpcd without a collision method!" ++ nl).
Definition period_error : event :=
  MsgError ("mpcd.integrate: collision period must be multiple of integration period" ++ nl).
Definition period_exception : exn :=
  ValueError "Collision period must be multiple of integration period".

(** What [set_params] reports for an anisotropic mode it does not know. *)
Definition aniso_error (a : pyval) : event :=
  MsgError ("mpcd.integrate: unknown anisotropic mode " ++ py_str a ++ "." ++ nl).
Definition aniso_exception : exn :=
  RuntimeError "Error setting anisotropic integration mode.".

(** What [__init__] reports without an MPCD system. *)
Definition no_mpcd_error : event :=
  MsgError ("mpcd.integrate: an MPCD system must be initialized before the integrator" ++ nl).
Definition no_mpcd_exception : exn :=
  RuntimeError "MPCD system not initialized".

(** The integrator with another [dt], in Python and in C++. *)
Definition with_dt (s : integrator) (c : cpp_integrator_t) (d : pyfloat)
    : integrator :=
  mk_integrator (supports_methods s) d (aniso s) (metadata_fields s)
                (Some (setDeltaT d c)).

Definition is_warning (e : event) : bool :=
  match e with MsgWarning _ => true | _ => false end.
Definition is_error (e : event) : bool :=
  match e with MsgError _ => true | _ => false end.

(** The Python attributes [dt] and [aniso] agree with what the C++
    integrator holds. *)
Definition in_sync (s : integrator) : Prop :=
  exists c : cpp_integrator_t,
    cpp_integrator s = Some c /\
    deltaT c = dt s /\
    dict_get (aniso s) _aniso_modes = Some (anisotropic_mode c).

(** Two contexts that differ in their message log at most. *)
Definition same_setup (c c' : context) : Prop :=
  mpcd c = mpcd c' /\
  integration_methods c = integration_methods c' /\
  system_integrator c = system_integrator c'.

(** The context once [system.setIntegrator] has been called. *)
Definition registered (c : context) : context :=
  mk_context (mpcd c) (integration_methods c) true (msg c).

(** The C++ integrator [__init__] creates for the MPCD system [sys]. *)
Definition new_cpp (sys : mpcd_system) (d : pyfloat) : cpp_integrator_t :=
  match comm sys with
  | Some k => setMPCDCommunicator k (Integrator (data sys) d)
  | None => Integrator (data sys) d
  end.

(** The state [__init__] has reached when it looks at [aniso]: the
    constructor of the base class has run (leaving the state [w1]), the
    attributes are assigned, the C++ integrator is created and registered. *)
Definition constructed (w1 : world) (sys : mpcd_system) (d : pyfloat)
    (a : pyval) : world :=
  mk_world (registered (current w1))
           (mk_integrator true d a ["dt"; "aniso"] (Some (new_cpp sys d))).

(* ------------------------------------------------------------------ *)
(** ** The step loop *)

Module Schedule.

(** The run as an observer sees it.  The solute data carries the step it
    is the state of; of the solvent the run records at which steps the
    streaming and the collision method were invoked. *)
Record sim : Type := mk_sim {
  timestep : Z;               (* the step the next update runs *)
  solute_step : Z;            (* the step the solute (MD) data is valid for *)
  streamed : list Z;          (* the steps the streaming method ran at *)
  rebuilt : bool;             (* a cell list has been built *)
  calls : list (Z * handle);  (* (step, MD method) of every invocation *)
  collisions : list Z         (* the steps the collision method ran at *)
}.

Definition start : sim := mk_sim 0 0 [] false [] [].

(** Modelled from the spec: the step loop of the C++ integrator
    ([_mpcd.Integrator], which [hoomd.run] drives) is not among the sources.
    Section 4.5, with phase 0: each base step (1) every attached solute
    integration method is invoked for one base step; (2) if
    [current_step mod stream_period == 0] the cell list is rebuilt and the
    streaming method is invoked; (3) if
    [current_step mod collide_period == 0] and a cell list was rebuilt at or
    before this step, the collision method is invoked. *)
Definition update (stream collide : option mpcd_method)
    (methods : list handle) (s : sim) : sim :=
  let t := timestep s in
  let streams :=
    match stream with
    | Some m => t mod period m =? 0
    | None => false
    end in
  let built := rebuilt s || streams in
  let collides :=
    match collide with
    | Some k => (t mod period k =? 0) && built
    | None => false
    end in
  mk_sim (t + 1)
         (solute_step s + 1)
         (if streams then streamed s ++ [t] else streamed s)
         built
         (calls s ++ map (fun m => (t, m)) methods)
         (if collides then collisions s ++ [t] else collisions s).

(** [n] base steps. *)
Fixpoint run (stream collide : option mpcd_method) (methods : list handle)
    (n : nat) (s : sim) : sim :=
  match n with
  | O => s
  | S n' => update stream collide methods (run stream collide methods n' s)
  end.

(** The MD methods invoked at step [k], in the order of their calls. *)
Definition invoked_at (k : Z) (s : sim) : list handle :=
  map snd (filter (fun p => fst p =? k) (calls s)).

(** Modelled from the spec: the snapshot interface ([hoomd.data]) is not
    among the sources.  Section 6: the solute particle state a query returns
    is the state the solute is in (it advances every base step); here, the
    step the solute data is the state of. *)
Definition snapshot_solute (s : sim) : Z := solute_step s.

End Schedule.

(* ------------------------------------------------------------------ *)
(** ** Concrete states for the examples *)

(** A base class for the examples: its constructor leaves the object without
    a C++ integrator, its check asks for one. *)
Definition example_base : _integrator := {|
  base_init := set_cpp_integrator None ;; set_supports_methods false;
  check_initialization :=
    s <- get_self ;;
    match cpp_integrator s with
    | Some _ => ret tt
    | None => raise (RuntimeError EmptyString)
    end
|}.

(** The binary64 number 0.5 *)
Definition half : pyfloat := S754_finite false 4503599627370496 (-53).
(** The binary64 number 0.25 *)
Definition quarter : pyfloat := S754_finite false 4503599627370496 (-54).

Definition example_system (stream collide : option mpcd_method)
    : mpcd_system :=
  mk_system 1%nat None stream collide.

Definition example_context (sys : option mpcd_system) : context :=
  mk_context sys [mk_imethod 7%nat; mk_imethod 8%nat] false [].

Definition example_integrator : integrator :=
  mk_integrator true half PyNone ["dt"; "aniso"]
                (Some (Integrator 1%nat half)).

(** An object [__init__] has not yet filled in. *)
Definition blank_integrator : integrator :=
  mk_integrator false (S754_zero false) PyNone [] None.

(** A constructed integrator in a context with the given streaming and
    collision methods. *)
Definition example_world (stream collide : option mpcd_method) : world :=
  mk_world (example_context (Some (example_system stream collide)))
           example_integrator.

(** The state before construction, with or without an MPCD system. *)
Definition fresh_world (sys : option mpcd_system) : world :=
  mk_world (example_context sys) blank_integrator.

(** A streaming method every 2 steps, collision methods every 3 and every 4
    steps. *)
Definition stream2 : mpcd_method := mk_method 2 11%nat.
Definition collide3 : mpcd_method := mk_method 3 12%nat.
Definition collide4 : mpcd_method := mk_method 4 12%nat.

(* ------------------------------------------------------------------ *)
(** ** Running the monad *)

Lemma bind_ok {A B : Type} (c : M A) (k : A -> M B) (w w' : world) (a : A) :
  c w = (Ok a, w') -> bind c k w = k a w'.
Proof. intros H. unfold bind. rewrite H. reflexivity. Qed.

Lemma bind_raise {A B : Type} (c : M A) (k : A -> M B) (w w' : world) (e : exn) :
  c w = (Raise e, w') -> bind c k w = (Raise e, w').
Proof. intros H. unfold bind. rewrite H. reflexivity. Qed.

Lemma cpp_call_some (f : cpp_integrator_t -> cpp_integrator_t)
    (ctx : context) (s : integrator) (c : cpp_integrator_t) :
  cpp_integrator s = Some c ->
  cpp_call f (mk_world ctx s) = (Ok tt, mk_world ctx (with_cpp s (f c))).
Proof.
  intros H. unfold cpp_call, bind, get_self, set_cpp_integrator, modify_self.
  simpl. rewrite H. reflexivity.
Qed.

Lemma with_cpp_cpp (s : integrator) (c : cpp_integrator_t) :
  cpp_integrator (with_cpp s c) = Some c.
Proof. reflexivity. Qed.

Lemma with_cpp_twice (s : integrator) (c c' : cpp_integrator_t) :
  with_cpp (with_cpp s c) c' = with_cpp s c'.
Proof. reflexivity. Qed.

Lemma emit_run (e : event) (ctx : context) (s : integrator) :
  emit e (mk_world ctx s) = (Ok tt, mk_world (logged ctx e) s).
Proof. reflexivity. Qed.

Lemma current_mpcd_some (ctx : context) (s : integrator) (sys : mpcd_system) :
  mpcd ctx = Some sys ->
  current_mpcd (mk_world ctx s) = (Ok sys, mk_world ctx s).
Proof.
  intros H. unfold current_mpcd, bind, get_context. simpl. rewrite H.
  reflexivity.
Qed.

(** The loop of [update_methods] appends the C++ method of every MD
    integration method, in the order of the list. *)
Lemma for_each_add (ms : list integration_method) :
  forall (ctx : context) (s : integrator) (c : cpp_integrator_t),
    for_each ms (fun m => cpp_call (addIntegrationMethod (cpp_method m)))
             (mk_world ctx (with_cpp s c))
    = (Ok tt,
       mk_world ctx
         (with_cpp s (with_methods c (cpp_methods c ++ map cpp_method ms)))).
Proof.
  induction ms as [| m ms IH]; intros ctx s c; simpl.
  - unfold ret, with_methods. rewrite app_nil_r. destruct c; reflexivity.
  - erewrite bind_ok by (apply cpp_call_some; apply with_cpp_cpp).
    rewrite with_cpp_twice, IH. unfold with_methods, addIntegrationMethod.
    simpl. rewrite <- app_assoc. reflexivity.
Qed.

(** One step of a run: the next statement succeeds by the lemma at hand. *)
Ltac step_ok lem := erewrite bind_ok by (apply lem; eauto using with_cpp_cpp).

Section Runs.
Context `{Base : _integrator}.

(** [update_methods] up to the point where the collision method is read. *)
Lemma update_methods_run (ctx : context) (s : integrator)
    (c : cpp_integrator_t) (sys : mpcd_system) :
  initialized (mk_world ctx s) ->
  cpp_integrator s = Some c ->
  mpcd ctx = Some sys ->
  update_methods (mk_world ctx s)
  = match _stream sys, _collide sys with
    | Some st, Some k =>
        if period st =? 0 then
          (Raise ZeroDivisionError,
           mk_world ctx
             (with_cpp s (setStreamingMethod (_cpp st) (reloaded ctx c))))
        else if negb (period k mod period st =? 0) then
          (Raise period_exception,
           mk_world (logged ctx period_error)
             (with_cpp s (setStreamingMethod (_cpp st) (reloaded ctx c))))
        else
          (Ok tt,
           mk_world ctx
             (with_cpp s (setCollisionMethod (_cpp k)
                            (setStreamingMethod (_cpp st) (reloaded ctx c)))))
    | None, Some k =>
        (Ok tt,
         mk_world (logged ctx no_stream_warning)
           (with_cpp s (setCollisionMethod (_cpp k)
                          (removeStreamingMethod (reloaded ctx c)))))
    | Some st, None =>
        (Ok tt,
         mk_world (logged ctx no_collide_warning)
           (with_cpp s (removeCollisionMethod
                          (setStreamingMethod (_cpp st) (reloaded ctx c)))))
    | None, None =>
        (Ok tt,
         mk_world (logged (logged ctx no_stream_warning) no_collide_warning)
           (with_cpp s (removeCollisionMethod
                          (removeStreamingMethod (reloaded ctx c)))))
    end.
Proof.
  intros Hinit Hcpp Hsys. unfold update_methods.
  erewrite bind_ok by exact Hinit.
  step_ok cpp_call_some.
  unfold bind at 1, get_context; simpl.
  erewrite bind_ok by apply for_each_add.
  step_ok current_mpcd_some.
  fold (reloaded ctx c).
  destruct sys as [d cm [st |] [k |]]; simpl.
  - step_ok cpp_call_some. step_ok current_mpcd_some. simpl.
    rewrite with_cpp_twice. unfold lift, py_mod.
    destruct (period st =? 0) eqn:E0; [reflexivity |].
    unfold bind at 1. unfold bind at 1.
    destruct (negb (period k mod period st =? 0)) eqn:Em; [reflexivity |].
    unfold ret. now rewrite cpp_call_some with (c := setStreamingMethod (_cpp st) (reloaded ctx c)).
  - step_ok cpp_call_some. step_ok current_mpcd_some. simpl.
    reflexivity.
  - unfold msg_warning.
    erewrite bind_ok
      by (erewrite bind_ok by apply emit_run;
          apply cpp_call_some; apply with_cpp_cpp).
    step_ok current_mpcd_some. simpl.
    unfold bind at 1, ret.
    now rewrite cpp_call_some with (c := removeStreamingMethod (reloaded ctx c)).
  - unfold msg_warning.
    erewrite bind_ok
      by (erewrite bind_ok by apply emit_run;
          apply cpp_call_some; apply with_cpp_cpp).
    step_ok current_mpcd_some. simpl.
    erewrite bind_ok by apply emit_run.
    now rewrite cpp_call_some with (c := removeStreamingMethod (reloaded ctx c)).
Qed.

End Runs.

(* ------------------------------------------------------------------ *)
(** ** set_params *)

Section SetParams.
Context `{Base : _integrator}.

(** [set_params] up to the point where [aniso] is looked at. *)
Lemma set_params_run (ctx : context) (s : integrator) (c : cpp_integrator_t)
    (new_dt : option pyfloat) (a : pyval) :
  initialized (mk_world (logged ctx PrintStatusLine) s) ->
  cpp_integrator s = Some c ->
  set_params new_dt a (mk_world ctx s)
  = let s1 := match new_dt with Some d => with_dt s c d | None => s end in
    let c1 := match new_dt with Some d => setDeltaT d c | None => c end in
    let ctx1 := logged ctx PrintStatusLine in
    if py_is_none a then (Ok tt, mk_world ctx1 s1)
    else
      match dict_get a _aniso_modes with
      | Some m =>
          (Ok tt,
           mk_world ctx1
             (mk_integrator (supports_methods s1) (dt s1) a
                            (metadata_fields s1)
                            (Some (setAnisotropicMode m c1))))
      | None =>
          (Raise aniso_exception, mk_world (logged ctx1 (aniso_error a)) s1)
      end.
Proof.
  intros Hinit Hcpp. unfold set_params, print_status_line.
  erewrite bind_ok by apply emit_run.
  erewrite bind_ok by exact Hinit.
  assert (Hdt :
    match new_dt with
    | Some d => set_dt d ;; cpp_call (setDeltaT d)
    | None => ret tt
    end (mk_world (logged ctx PrintStatusLine) s)
    = (Ok tt,
       mk_world (logged ctx PrintStatusLine)
         match new_dt with Some d => with_dt s c d | None => s end)).
  { destruct new_dt as [d |]; [| reflexivity].
    unfold bind at 1, set_dt, modify_self; simpl.
    erewrite cpp_call_some by (simpl; exact Hcpp). reflexivity. }
  erewrite bind_ok by exact Hdt. clear Hdt.
  cbv zeta.
  destruct (py_is_none a); [reflexivity |].
  destruct (dict_get a _aniso_modes) as [m |].
  - unfold bind at 1, ret. unfold bind at 1, set_aniso, modify_self; simpl.
    destruct new_dt as [d |]; simpl.
    + erewrite cpp_call_some by reflexivity. reflexivity.
    + erewrite cpp_call_some by (simpl; exact Hcpp). reflexivity.
  - unfold bind at 1. unfold msg_error.
    erewrite bind_ok by apply emit_run. reflexivity.
Qed.

End SetParams.

(* ------------------------------------------------------------------ *)
(** ** update_methods: the period check *)

Lemma world_eta (w : world) : w = mk_world (current w) (self w).
Proof. destruct w; reflexivity. Qed.

(** C1 as the specification states it fails: with a streaming method every
    2 steps and a collision method every 3 steps the call raises, but what
    it raises is [ValueError], not [ConfigurationError]. *)
Lemma period_mismatch_is_no_ConfigurationError :
  period collide3 mod period stream2 <> 0 /\
  fst (update_methods (Base := example_base)
         (example_world (Some stream2) (Some collide3)))
  = Raise period_exception /\
  ~ (exists m,
        fst (update_methods (Base := example_base)
               (example_world (Some stream2) (Some collide3)))
        = Raise (ConfigurationError m)).
Proof.
  split; [discriminate |].
  split; [reflexivity |].
  intros [m H]. discriminate H.
Qed.

(** C1, amended: with both a streaming method (stream period S, not zero)
    and a collision method (collide period C) attached, [update_methods]
    raises [ValueError] when C mod S is not 0 and returns normally when
    C mod S is 0. *)
Theorem update_methods_period_check `{Base : _integrator}
    (w : world) (c : cpp_integrator_t) (sys : mpcd_system)
    (st k : mpcd_method) :
  initialized w ->
  cpp_integrator (self w) = Some c ->
  mpcd (current w) = Some sys ->
  _stream sys = Some st ->
  _collide sys = Some k ->
  period st <> 0 ->
  (period k mod period st <> 0 ->
   fst (update_methods w) = Raise period_exception) /\
  (period k mod period st = 0 ->
   fst (update_methods w) = Ok tt).
Proof.
  intros Hinit Hcpp Hsys Hst Hk HS.
  rewrite (world_eta w) in Hinit |- *.
  rewrite (update_methods_run _ _ c sys Hinit Hcpp Hsys), Hst, Hk.
  apply Z.eqb_neq in HS. rewrite HS.
  split; intros H.
  - apply Z.eqb_neq in H. rewrite H. reflexivity.
  - apply Z.eqb_eq in H. rewrite H. reflexivity.
Qed.

Lemma update_methods_period_check_witness :
  fst (update_methods (Base := example_base)
         (example_world (Some stream2) (Some collide3)))
  = Raise period_exception /\
  fst (update_methods (Base := example_base)
         (example_world (Some stream2) (Some collide4)))
  = Ok tt.
Proof.
  split.
  - apply (update_methods_period_check (Base := example_base)
             (example_world (Some stream2) (Some collide3))
             (Integrator 1%nat half)
             (example_system (Some stream2) (Some collide3))
             stream2 collide3);
      try reflexivity; discriminate.
  - apply (update_methods_period_check (Base := example_base)
             (example_world (Some stream2) (Some collide4))
             (Integrator 1%nat half)
             (example_system (Some stream2) (Some collide4))
             stream2 collide4);
      try reflexivity; discriminate.
Defined.

(** C10: with a collision method attached and no streaming method, the
    periods are not compared: whatever the collision period is,
    [update_methods] logs the missing-streaming warning and nothing else,
    sets the collision method and returns normally. *)
Theorem update_methods_without_stream_skips_check `{Base : _integrator}
    (w : world) (c : cpp_integrator_t) (sys : mpcd_system) (k : mpcd_method) :
  initialized w ->
  cpp_integrator (self w) = Some c ->
  mpcd (current w) = Some sys ->
  _stream sys = None ->
  _collide sys = Some k ->
  fst (update_methods w) = Ok tt /\
  msg (current (snd (update_methods w)))
  = (msg (current w) ++ [no_stream_warning])%list /\
  option_map collision_method (cpp_integrator (self (snd (update_methods w))))
  = Some (Some (_cpp k)) /\
  option_map streaming_method (cpp_integrator (self (snd (update_methods w))))
  = Some None.
Proof.
  intros Hinit Hcpp Hsys Hst Hk.
  rewrite (world_eta w) in Hinit |- *.
  rewrite (update_methods_run _ _ c sys Hinit Hcpp Hsys), Hst, Hk.
  simpl. repeat split; reflexivity.
Qed.

Lemma update_methods_without_stream_skips_check_witness :
  fst (update_methods (Base := example_base)
         (example_world None (Some collide3))) = Ok tt /\
  msg (current (snd (update_methods (Base := example_base)
                       (example_world None (Some collide3)))))
  = [no_stream_warning].
Proof.
  destruct (update_methods_without_stream_skips_check (Base := example_base)
              (example_world None (Some collide3))
              (Integrator 1%nat half)
              (example_system None (Some collide3))
              collide3
              eq_refl eq_refl eq_refl eq_refl eq_refl) as [H1 [H2 _]].
  split; [exact H1 | exact H2].
Defined.

(** C6: when the streaming method or the collision method (or both) is
    absent, [update_methods] returns normally; what it adds to the message
    log is at least one entry and warnings only. *)
Theorem update_methods_absent_method_warns `{Base : _integrator}
    (w : world) (c : cpp_integrator_t) (sys : mpcd_system) :
  initialized w ->
  cpp_integrator (self w) = Some c ->
  mpcd (current w) = Some sys ->
  _stream sys = None \/ _collide sys = None ->
  fst (update_methods w) = Ok tt /\
  exists evs : list event,
    msg (current (snd (update_methods w))) = (msg (current w) ++ evs)%list /\
    evs <> [] /\
    forallb is_warning evs = true.
Proof.
  intros Hinit Hcpp Hsys Habs.
  rewrite (world_eta w) in Hinit |- *.
  rewrite (update_methods_run _ _ c sys Hinit Hcpp Hsys).
  destruct (_stream sys) as [st |] eqn:Est, (_collide sys) as [k |] eqn:Ek.
  - destruct Habs; discriminate.
  - split; [reflexivity |]. exists [no_collide_warning]. simpl.
    repeat split; [discriminate].
  - split; [reflexivity |]. exists [no_stream_warning]. simpl.
    repeat split; [discriminate].
  - split; [reflexivity |]. exists [no_stream_warning; no_collide_warning].
    simpl. rewrite <- app_assoc. repeat split; [discriminate].
Qed.

Lemma update_methods_absent_method_warns_witness :
  fst (update_methods (Base := example_base)
         (example_world (Some stream2) None)) = Ok tt.
Proof.
  apply (update_methods_absent_method_warns (Base := example_base)
           (example_world (Some stream2) None)
           (Integrator 1%nat half)
           (example_system (Some stream2) None)
           eq_refl eq_refl eq_refl (or_intror eq_refl)).
Defined.

(* ------------------------------------------------------------------ *)
(** ** set_params: what it checks and what it leaves behind *)

(** The state [set_params] runs the base-class check in: the status line
    has been printed. *)
Lemma after_status_line (w : world) :
  snd (print_status_line w) = mk_world (logged (current w) PrintStatusLine) (self w).
Proof. reflexivity. Qed.

(** C9: [set_params] called with a new [dt] and with an [aniso] that is
    not a key of [_aniso_modes] (and so is not [None] either) raises
    [RuntimeError]; the new [dt] stays assigned, on the Python object and in
    the C++ integrator, while [aniso] and the anisotropic mode are as they
    were. *)
Theorem set_params_keeps_dt_on_error `{Base : _integrator}
    (w : world) (c : cpp_integrator_t) (d : pyfloat) (a : pyval) :
  initialized (snd (print_status_line w)) ->
  cpp_integrator (self w) = Some c ->
  py_in a _aniso_modes = false ->
  fst (set_params (Some d) a w) = Raise aniso_exception /\
  dt (self (snd (set_params (Some d) a w))) = d /\
  option_map deltaT (cpp_integrator (self (snd (set_params (Some d) a w))))
  = Some d /\
  aniso (self (snd (set_params (Some d) a w))) = aniso (self w) /\
  option_map anisotropic_mode
    (cpp_integrator (self (snd (set_params (Some d) a w))))
  = Some (anisotropic_mode c).
Proof.
  intros Hinit Hcpp Ha.
  rewrite after_status_line in Hinit.
  rewrite (world_eta w).
  rewrite (set_params_run _ _ c (Some d) a Hinit Hcpp). cbv zeta.
  unfold py_in in Ha.
  destruct (dict_get a _aniso_modes) as [m |] eqn:Em; [discriminate |].
  destruct a; try discriminate; simpl; repeat split; reflexivity.
Qed.

Lemma set_params_keeps_dt_on_error_witness :
  fst (set_params (Base := example_base) (Some quarter) (PyStr "yes")
         (example_world (Some stream2) (Some collide4)))
  = Raise aniso_exception /\
  dt (self (snd (set_params (Base := example_base) (Some quarter) (PyStr "yes")
                   (example_world (Some stream2) (Some collide4)))))
  = quarter.
Proof.
  destruct (set_params_keeps_dt_on_error (Base := example_base)
              (example_world (Some stream2) (Some collide4))
              (Integrator 1%nat half) quarter (PyStr "yes")
              eq_refl eq_refl eq_refl) as [H1 [H2 _]].
  split; [exact H1 | exact H2].
Defined.




(* ------------------------------------------------------------------ *)
(** ** __init__ *)

(** C5: without an MPCD system the constructor raises [RuntimeError] (after
    reporting the error, and before it touches the object); so a
    construction that returns normally had an MPCD system to start from. *)
Theorem init_requires_mpcd_system `{Base : _integrator}
    (w : world) (d : pyfloat) (a : pyval) :
  (mpcd (current w) = None ->
   __init__ d a w
   = (Raise no_mpcd_exception,
      mk_world (logged (current w) no_mpcd_error) (self w))) /\
  (fst (__init__ d a w) = Ok tt -> mpcd (current w) <> None).
Proof.
  assert (H : mpcd (current w) = None ->
              __init__ d a w
              = (Raise no_mpcd_exception,
                 mk_world (logged (current w) no_mpcd_error) (self w))).
  { intros Hn. unfold __init__. unfold bind at 1, get_context.
    rewrite Hn. reflexivity. }
  split; [exact H |].
  intros Hok Hn. rewrite (H Hn) in Hok. discriminate Hok.
Qed.

Lemma init_requires_mpcd_system_witness :
  fst (__init__ (Base := example_base) half PyNone (fresh_world None))
  = Raise no_mpcd_exception /\
  mpcd (current (fresh_world (Some (example_system None None)))) <> None.
Proof.
  split.
  - rewrite (proj1 (init_requires_mpcd_system (Base := example_base)
                      (fresh_world None) half PyNone) eq_refl).
    reflexivity.
  - apply (proj2 (init_requires_mpcd_system (Base := example_base)
                    (fresh_world (Some (example_system None None)))
                    half (PyBool true))).
    reflexivity.
Defined.

(* ------------------------------------------------------------------ *)
(** ** The step loop: the solute methods *)

Module ScheduleFacts.
Import Schedule.

Section Run.
Variables (stream collide : option mpcd_method) (methods : list handle).

Lemma run_timestep (n : nat) : timestep (run stream collide methods n start) = Z.of_nat n.
Proof.
  induction n as [| n IH]; [reflexivity |].
  cbn [run update timestep]. rewrite IH. lia.
Qed.

Lemma run_solute_step (n : nat) : solute_step (run stream collide methods n start) = Z.of_nat n.
Proof.
  induction n as [| n IH]; [reflexivity |].
  cbn [run update solute_step]. rewrite IH. lia.
Qed.

Lemma calls_of_step (t k : Z) (ms : list handle) :
  map snd (filter (fun p : Z * handle => fst p =? k)
                  (map (fun m => (t, m)) ms))
  = if t =? k then ms else [].
Proof.
  induction ms as [| m ms IH]; simpl.
  - destruct (t =? k); reflexivity.
  - destruct (t =? k) eqn:E; simpl; rewrite IH; reflexivity.
Qed.

Lemma run_invoked_at (n : nat) (k : Z) :
  invoked_at k (run stream collide methods n start)
  = if (0 <=? k) && (k <? Z.of_nat n) then methods else [].
Proof.
  induction n as [| n IH].
  - unfold invoked_at. simpl.
    destruct (0 <=? k) eqn:E0; simpl; [| reflexivity].
    destruct (k <? 0) eqn:E1; [lia | reflexivity].
  - unfold invoked_at in *. cbn [run update calls].
    rewrite filter_app, map_app, IH, calls_of_step, run_timestep.
    rewrite Nat2Z.inj_succ.
    destruct (Z.leb_spec 0 k), (Z.ltb_spec k (Z.of_nat n)),
             (Z.eqb_spec (Z.of_nat n) k), (Z.ltb_spec k (Z.succ (Z.of_nat n)));
      simpl; try rewrite app_nil_r; try reflexivity; lia.
Qed.

End Run.

End ScheduleFacts.

(** C8: [update_methods], when it returns normally, has attached every
    integration method of the context to the C++ integrator, in order; and
    in the step loop every attached method is invoked at each base step, so
    that a snapshot taken at step t holds the solute data of step t. *)
Theorem solute_methods_run_every_step `{Base : _integrator}
    (w : world) (c : cpp_integrator_t) (sys : mpcd_system) (n : nat) :
  initialized w ->
  cpp_integrator (self w) = Some c ->
  mpcd (current w) = Some sys ->
  fst (update_methods w) = Ok tt ->
  exists c' : cpp_integrator_t,
    cpp_integrator (self (snd (update_methods w))) = Some c' /\
    cpp_methods c' = map cpp_method (integration_methods (current w)) /\
    Schedule.snapshot_solute
      (Schedule.run (_stream sys) (_collide sys) (cpp_methods c') n
                    Schedule.start)
    = Z.of_nat n /\
    forall k : Z,
      0 <= k < Z.of_nat n ->
      Schedule.invoked_at k
        (Schedule.run (_stream sys) (_collide sys) (cpp_methods c') n
                      Schedule.start)
      = cpp_methods c'.
Proof.
  intros Hinit Hcpp Hsys.
  rewrite (world_eta w) in Hinit |- *.
  rewrite (update_methods_run _ _ c sys Hinit Hcpp Hsys). simpl current.
  assert (Hrun : forall ms : list handle,
    Schedule.snapshot_solute
      (Schedule.run (_stream sys) (_collide sys) ms n Schedule.start)
    = Z.of_nat n /\
    forall k : Z,
      0 <= k < Z.of_nat n ->
      Schedule.invoked_at k
        (Schedule.run (_stream sys) (_collide sys) ms n Schedule.start)
      = ms).
  { intros ms. split.
    - apply ScheduleFacts.run_solute_step.
    - intros k Hk. rewrite ScheduleFacts.run_invoked_at.
      destruct (Z.leb_spec 0 k), (Z.ltb_spec k (Z.of_nat n));
        simpl; try reflexivity; lia. }
  destruct (_stream sys) as [st |], (_collide sys) as [k |].
  - destruct (period st =? 0); [discriminate |].
    destruct (negb (period k mod period st =? 0)); [discriminate |].
    intros _. eexists. split; [reflexivity |]. split; [reflexivity |].
    apply Hrun.
  - intros _. eexists. split; [reflexivity |]. split; [reflexivity |].
    apply Hrun.
  - intros _. eexists. split; [reflexivity |]. split; [reflexivity |].
    apply Hrun.
  - intros _. eexists. split; [reflexivity |]. split; [reflexivity |].
    apply Hrun.
Qed.

Lemma solute_methods_run_every_step_witness :
  exists c' : cpp_integrator_t,
    cpp_integrator
      (self (snd (update_methods (Base := example_base)
                    (example_world (Some stream2) (Some collide4)))))
    = Some c' /\
    cpp_methods c' = [7%nat; 8%nat] /\
    Schedule.snapshot_solute
      (Schedule.run (Some stream2) (Some collide4) (cpp_methods c') 3
                    Schedule.start)
    = 3 /\
    forall k : Z,
      0 <= k < 3 ->
      Schedule.invoked_at k
        (Schedule.run (Some stream2) (Some collide4) (cpp_methods c') 3
                      Schedule.start)
      = cpp_methods c'.
Proof.
  exact (solute_methods_run_every_step (Base := example_base)
           (example_world (Some stream2) (Some collide4))
           (Integrator 1%nat half)
           (example_system (Some stream2) (Some collide4)) 3
           eq_refl eq_refl eq_refl eq_refl).
Defined.

(* ------------------------------------------------------------------ *)
(** ** The code on concrete inputs *)

(** [1 in _aniso_modes] holds in Python, since [1 == True]: the integer 1
    selects the anisotropic mode, the integer 2 is rejected. *)
Example aniso_one_is_a_key :
  py_in (PyInt 1) _aniso_modes = true /\
  dict_get (PyInt 1) _aniso_modes = Some Anisotropic /\
  py_in (PyInt 2) _aniso_modes = false /\
  py_in (PyStr "True") _aniso_modes = false.
Proof. repeat split. Qed.

(** Construction in a context with an MPCD system: the object ends up with
    its C++ integrator, registered with the system. *)
Example init_with_system :
  __init__ (Base := example_base) half (PyBool true)
           (fresh_world (Some (example_system None None)))
  = (Ok tt,
     mk_world
       (mk_context (Some (example_system None None))
                   [mk_imethod 7%nat; mk_imethod 8%nat] true
                   [QuietStatus; PrintStatusLine; UnquietStatus])
       (mk_integrator true half (PyBool true) ["dt"; "aniso"]
          (Some (setAnisotropicMode Anisotropic (Integrator 1%nat half))))).
Proof. reflexivity. Qed.

(** A constructor call with an unknown [aniso] fails inside [set_params]:
    the status output stays quiet. *)
Example init_with_unknown_aniso :
  fst (__init__ (Base := example_base) half (PyStr "both")
         (fresh_world (Some (example_system None None))))
  = Raise aniso_exception /\
  msg (current (snd (__init__ (Base := example_base) half (PyStr "both")
                       (fresh_world (Some (example_system None None))))))
  = [QuietStatus; PrintStatusLine; aniso_error (PyStr "both")].
Proof. split; reflexivity. Qed.

(** Periods 2 and 4: both methods are attached, nothing is logged. *)
Example update_methods_2_4 :
  update_methods (Base := example_base)
                 (example_world (Some stream2) (Some collide4))
  = (Ok tt,
     mk_world (example_context (Some (example_system (Some stream2)
                                                     (Some collide4))))
       (with_cpp example_integrator
          (mk_cpp 1%nat half Automatic [7%nat; 8%nat]
                  (Some 11%nat) (Some 12%nat) None))).
Proof. reflexivity. Qed.

(** Periods 2 and 3: the error leaves the call after the MD methods and the
    streaming method have been attached; the collision method has not. *)
Example update_methods_2_3 :
  update_methods (Base := example_base)
                 (example_world (Some stream2) (Some collide3))
  = (Raise period_exception,
     mk_world (logged (example_context (Some (example_system (Some stream2)
                                                             (Some collide3))))
                      period_error)
       (with_cpp example_integrator
          (mk_cpp 1%nat half Automatic [7%nat; 8%nat]
                  (Some 11%nat) None None))).
Proof. reflexivity. Qed.

(** A stream period of 0 makes the [%] itself raise. *)
Example update_methods_zero_stream_period :
  fst (update_methods (Base := example_base)
         (example_world (Some (mk_method 0 11%nat)) (Some collide3)))
  = Raise ZeroDivisionError.
Proof. reflexivity. Qed.

(* ------------------------------------------------------------------ *)
(** ** update_methods: outcomes, partial updates, repetition *)

(** X1: [update_methods] has three outcomes only: a normal return,
    the [ValueError] of the period check, or the [ZeroDivisionError] of
    [%].  It returns normally exactly when a method is missing or the
    stream period is nonzero and divides the collision period; and it logs
    its error message exactly when it raises the [ValueError], everything
    else it logs being warnings. *)
Theorem update_methods_outcomes `{Base : _integrator}
    (w : world) (c : cpp_integrator_t) (sys : mpcd_system) :
  initialized w ->
  cpp_integrator (self w) = Some c ->
  mpcd (current w) = Some sys ->
  (fst (update_methods w) = Ok tt \/
   fst (update_methods w) = Raise period_exception \/
   fst (update_methods w) = Raise ZeroDivisionError) /\
  (fst (update_methods w) = Ok tt <->
   forall st k : mpcd_method,
     _stream sys = Some st -> _collide sys = Some k ->
     period st <> 0 /\ period k mod period st = 0) /\
  exists evs : list event,
    msg (current (snd (update_methods w))) = (msg (current w) ++ evs)%list /\
    (fst (update_methods w) = Raise period_exception -> evs = [period_error]) /\
    (fst (update_methods w) <> Raise period_exception ->
     forallb is_warning evs = true).
Proof.
  intros Hinit Hcpp Hsys.
  rewrite (world_eta w) in Hinit |- *.
  rewrite (update_methods_run _ _ c sys Hinit Hcpp Hsys). simpl current.
  assert (Hlog : forall (r : result unit) (l evs : list event),
            r <> Raise period_exception ->
            forallb is_warning evs = true ->
            (r = Raise period_exception -> evs = [period_error]) /\
            (r <> Raise period_exception -> forallb is_warning evs = true)).
  { intros r l evs Hr Hw. split; [intros H; contradiction | intros _; exact Hw]. }
  destruct (_stream sys) as [st |], (_collide sys) as [k |].
  - destruct (Z.eqb_spec (period st) 0) as [E0 | E0];
      [| destruct (Z.eqb_spec (period k mod period st) 0) as [Em | Em]];
      simpl.
    + split; [auto |]. split.
      * split; [discriminate |]. intros H.
        destruct (H st k eq_refl eq_refl) as [H0 _]. contradiction.
      * exists []. rewrite app_nil_r. split; [reflexivity |].
        apply (Hlog _ []); [discriminate | reflexivity].
    + split; [auto |]. split.
      * split; [| reflexivity]. intros _ st' k' Hst Hk.
        injection Hst as <-. injection Hk as <-. split; assumption.
      * exists []. rewrite app_nil_r. split; [reflexivity |].
        apply (Hlog _ []); [discriminate | reflexivity].
    + split; [auto |]. split.
      * split; [discriminate |]. intros H.
        destruct (H st k eq_refl eq_refl) as [_ H1]. contradiction.
      * exists [period_error]. split; [reflexivity |].
        split; [reflexivity | intros H; contradiction H; reflexivity].
  - split; [auto |]. split.
    + split; [| reflexivity]. intros _ st' k' _ Hk. discriminate Hk.
    + exists [no_collide_warning]. split; [reflexivity |].
      apply (Hlog _ []); [discriminate | reflexivity].
  - split; [auto |]. split.
    + split; [| reflexivity]. intros _ st' k' Hst _. discriminate Hst.
    + exists [no_stream_warning]. split; [reflexivity |].
      apply (Hlog _ []); [discriminate | reflexivity].
  - split; [auto |]. split.
    + split; [| reflexivity]. intros _ st' k' Hst _. discriminate Hst.
    + exists [no_stream_warning; no_collide_warning]. simpl.
      rewrite <- app_assoc. split; [reflexivity |].
      apply (Hlog _ []); [discriminate | reflexivity].
Qed.

Lemma update_methods_outcomes_witness :
  fst (update_methods (Base := example_base)
         (example_world (Some stream2) (Some collide3))) = Ok tt \/
  fst (update_methods (Base := example_base)
         (example_world (Some stream2) (Some collide3)))
  = Raise period_exception \/
  fst (update_methods (Base := example_base)
         (example_world (Some stream2) (Some collide3)))
  = Raise ZeroDivisionError.
Proof.
  exact (proj1 (update_methods_outcomes (Base := example_base)
                  (example_world (Some stream2) (Some collide3))
                  (Integrator 1%nat half)
                  (example_system (Some stream2) (Some collide3))
                  eq_refl eq_refl eq_refl)).
Defined.

(** X2: a call of [update_methods] that fails with both methods attached
    is not undone: the C++ integrator already holds the MD methods of the
    context and the new streaming method, while its collision method is the
    one it had before the call. *)
Theorem update_methods_failure_is_partial `{Base : _integrator}
    (w : world) (c : cpp_integrator_t) (sys : mpcd_system)
    (st k : mpcd_method) :
  initialized w ->
  cpp_integrator (self w) = Some c ->
  mpcd (current w) = Some sys ->
  _stream sys = Some st ->
  _collide sys = Some k ->
  fst (update_methods w) <> Ok tt ->
  exists c' : cpp_integrator_t,
    cpp_integrator (self (snd (update_methods w))) = Some c' /\
    cpp_methods c' = map cpp_method (integration_methods (current w)) /\
    streaming_method c' = Some (_cpp st) /\
    collision_method c' = collision_method c.
Proof.
  intros Hinit Hcpp Hsys Hst Hk.
  rewrite (world_eta w) in Hinit |- *.
  rewrite (update_methods_run _ _ c sys Hinit Hcpp Hsys), Hst, Hk.
  simpl current.
  destruct (period st =? 0);
    [| destruct (negb (period k mod period st =? 0))]; simpl; intros Hfail.
  - eexists. repeat split.
  - eexists. repeat split.
  - contradiction Hfail. reflexivity.
Qed.

Lemma update_methods_failure_is_partial_witness :
  exists c' : cpp_integrator_t,
    cpp_integrator
      (self (snd (update_methods (Base := example_base)
                    (example_world (Some stream2) (Some collide3)))))
    = Some c' /\
    cpp_methods c' = [7%nat; 8%nat] /\
    streaming_method c' = Some 11%nat /\
    collision_method c' = None.
Proof.
  apply (update_methods_failure_is_partial (Base := example_base)
           (example_world (Some stream2) (Some collide3))
           (Integrator 1%nat half)
           (example_system (Some stream2) (Some collide3))
           stream2 collide3 eq_refl eq_refl eq_refl eq_refl eq_refl).
  discriminate.
Defined.

(** X3: a stream period of 0 with both methods attached makes [%] raise
    [ZeroDivisionError], for every collision period, and nothing is
    logged. *)
Theorem update_methods_zero_stream_period_raises `{Base : _integrator}
    (w : world) (c : cpp_integrator_t) (sys : mpcd_system)
    (st k : mpcd_method) :
  initialized w ->
  cpp_integrator (self w) = Some c ->
  mpcd (current w) = Some sys ->
  _stream sys = Some st ->
  _collide sys = Some k ->
  period st = 0 ->
  fst (update_methods w) = Raise ZeroDivisionError /\
  current (snd (update_methods w)) = current w.
Proof.
  intros Hinit Hcpp Hsys Hst Hk H0.
  rewrite (world_eta w) in Hinit |- *.
  rewrite (update_methods_run _ _ c sys Hinit Hcpp Hsys), Hst, Hk, H0.
  split; reflexivity.
Qed.

Lemma update_methods_zero_stream_period_raises_witness :
  fst (update_methods (Base := example_base)
         (example_world (Some (mk_method 0 11%nat)) (Some collide4)))
  = Raise ZeroDivisionError.
Proof.
  apply (update_methods_zero_stream_period_raises (Base := example_base)
           (example_world (Some (mk_method 0 11%nat)) (Some collide4))
           (Integrator 1%nat half)
           (example_system (Some (mk_method 0 11%nat)) (Some collide4))
           (mk_method 0 11%nat) collide4
           eq_refl eq_refl eq_refl eq_refl eq_refl eq_refl).
Defined.

(** X4: the period check looks at divisibility only, not at the sign or
    size of the periods: with a nonzero stream period S, every collision
    period m * S passes, for any integer m; so do a collision period of 0
    and negative periods. *)
Theorem update_methods_accepts_every_multiple `{Base : _integrator}
    (w : world) (c : cpp_integrator_t) (sys : mpcd_system)
    (st k : mpcd_method) (m : Z) :
  initialized w ->
  cpp_integrator (self w) = Some c ->
  mpcd (current w) = Some sys ->
  _stream sys = Some st ->
  _collide sys = Some k ->
  period st <> 0 ->
  period k = m * period st ->
  fst (update_methods w) = Ok tt /\
  option_map collision_method (cpp_integrator (self (snd (update_methods w))))
  = Some (Some (_cpp k)).
Proof.
  intros Hinit Hcpp Hsys Hst Hk HS Hm.
  rewrite (world_eta w) in Hinit |- *.
  rewrite (update_methods_run _ _ c sys Hinit Hcpp Hsys), Hst, Hk.
  apply Z.eqb_neq in HS. rewrite HS, Hm, Z.mod_mul by (apply Z.eqb_neq; exact HS).
  split; reflexivity.
Qed.

Lemma update_methods_accepts_every_multiple_witness :
  fst (update_methods (Base := example_base)
         (example_world (Some stream2) (Some (mk_method 0 12%nat))))
  = Ok tt /\
  fst (update_methods (Base := example_base)
         (example_world (Some (mk_method (-2) 11%nat))
                        (Some (mk_method 6 12%nat))))
  = Ok tt.
Proof.
  split.
  - apply (update_methods_accepts_every_multiple (Base := example_base)
             (example_world (Some stream2) (Some (mk_method 0 12%nat)))
             (Integrator 1%nat half)
             (example_system (Some stream2) (Some (mk_method 0 12%nat)))
             stream2 (mk_method 0 12%nat) 0
             eq_refl eq_refl eq_refl eq_refl eq_refl);
      [discriminate | reflexivity].
  - apply (update_methods_accepts_every_multiple (Base := example_base)
             (example_world (Some (mk_method (-2) 11%nat))
                            (Some (mk_method 6 12%nat)))
             (Integrator 1%nat half)
             (example_system (Some (mk_method (-2) 11%nat))
                             (Some (mk_method 6 12%nat)))
             (mk_method (-2) 11%nat) (mk_method 6 12%nat) (-3)
             eq_refl eq_refl eq_refl eq_refl eq_refl);
      [discriminate | reflexivity].
Defined.

(** X5: [update_methods] starts from an empty list of MD methods, so
    calling it again does not pile them up: a second call after a successful
    one succeeds too and leaves the integrator exactly as the first call
    did. *)
Theorem update_methods_twice `{Base : _integrator}
    (w : world) (c : cpp_integrator_t) (sys : mpcd_system) :
  initialized w ->
  cpp_integrator (self w) = Some c ->
  mpcd (current w) = Some sys ->
  fst (update_methods w) = Ok tt ->
  initialized (snd (update_methods w)) ->
  fst (update_methods (snd (update_methods w))) = Ok tt /\
  self (snd (update_methods (snd (update_methods w))))
  = self (snd (update_methods w)).
Proof.
  intros Hinit Hcpp Hsys.
  rewrite (world_eta w) in Hinit |- *.
  rewrite (update_methods_run _ _ c sys Hinit Hcpp Hsys).
  destruct (_stream sys) as [st |] eqn:Est, (_collide sys) as [k |] eqn:Ek.
  - destruct (period st =? 0) eqn:E0; [discriminate |].
    destruct (negb (period k mod period st =? 0)) eqn:Em; [discriminate |].
    intros _ Hinit'. simpl snd in *.
    rewrite (update_methods_run _ _ _ sys Hinit' eq_refl Hsys), Est, Ek, E0, Em.
    split; reflexivity.
  - intros _ Hinit'. simpl snd in *.
    rewrite (update_methods_run _ _ _ sys Hinit' eq_refl Hsys), Est, Ek.
    split; reflexivity.
  - intros _ Hinit'. simpl snd in *.
    rewrite (update_methods_run _ _ _ sys Hinit' eq_refl Hsys), Est, Ek.
    split; reflexivity.
  - intros _ Hinit'. simpl snd in *.
    rewrite (update_methods_run _ _ _ sys Hinit' eq_refl Hsys), Est, Ek.
    split; reflexivity.
Qed.

Lemma update_methods_twice_witness :
  self (snd (update_methods (Base := example_base)
               (snd (update_methods (Base := example_base)
                       (example_world (Some stream2) (Some collide4))))))
  = self (snd (update_methods (Base := example_base)
                 (example_world (Some stream2) (Some collide4)))).
Proof.
  apply (update_methods_twice (Base := example_base)
           (example_world (Some stream2) (Some collide4))
           (Integrator 1%nat half)
           (example_system (Some stream2) (Some collide4))
           eq_refl eq_refl eq_refl eq_refl eq_refl).
Defined.

(** X6: whatever its outcome, [update_methods] touches nothing but the
    method slots of the C++ integrator and the message log: the attributes
    of the Python object, the time step, anisotropic mode, particle data
    and communicator of the C++ integrator, and the rest of the context are
    as before; the log only grows. *)
Theorem update_methods_frame `{Base : _integrator}
    (w : world) (c : cpp_integrator_t) (sys : mpcd_system) :
  initialized w ->
  cpp_integrator (self w) = Some c ->
  mpcd (current w) = Some sys ->
  (exists c' : cpp_integrator_t,
      self (snd (update_methods w)) = with_cpp (self w) c' /\
      deltaT c' = deltaT c /\
      anisotropic_mode c' = anisotropic_mode c /\
      mpcd_data c' = mpcd_data c /\
      mpcd_communicator c' = mpcd_communicator c) /\
  same_setup (current (snd (update_methods w))) (current w) /\
  exists evs : list event,
    msg (current (snd (update_methods w))) = (msg (current w) ++ evs)%list.
Proof.
  intros Hinit Hcpp Hsys.
  rewrite (world_eta w) in Hinit |- *.
  rewrite (update_methods_run _ _ c sys Hinit Hcpp Hsys). simpl current.
  assert (Hnil : forall l : list event, exists evs, l = (l ++ evs)%list)
    by (intros l; exists []; rewrite app_nil_r; reflexivity).
  destruct (_stream sys) as [st |], (_collide sys) as [k |];
    [ destruct (period st =? 0);
      [| destruct (negb (period k mod period st =? 0))] | | | ];
    simpl;
    (split; [eexists; repeat split |]);
    (split; [repeat split |]);
    try apply Hnil.
  - exists [period_error]. reflexivity.
  - exists [no_collide_warning]. reflexivity.
  - exists [no_stream_warning]. reflexivity.
  - exists [no_stream_warning; no_collide_warning].
    rewrite <- app_assoc. reflexivity.
Qed.

Lemma update_methods_frame_witness :
  same_setup
    (current (snd (update_methods (Base := example_base)
                     (example_world None None))))
    (current (example_world None None)).
Proof.
  apply (update_methods_frame (Base := example_base)
           (example_world None None)
           (Integrator 1%nat half)
           (example_system None None)
           eq_refl eq_refl eq_refl).
Defined.

(** X7: when the context has lost its MPCD system, [update_methods] fails
    with [AttributeError] on reading the streaming method; by then it has
    already replaced the MD methods of the C++ integrator. *)
Theorem update_methods_without_system `{Base : _integrator}
    (w : world) (c : cpp_integrator_t) :
  initialized w ->
  cpp_integrator (self w) = Some c ->
  mpcd (current w) = None ->
  update_methods w
  = (Raise AttributeError,
     mk_world (current w) (with_cpp (self w) (reloaded (current w) c))).
Proof.
  intros Hinit Hcpp Hsys.
  rewrite (world_eta w) in Hinit |- *. simpl current in *. simpl self in *.
  unfold update_methods.
  erewrite bind_ok by exact Hinit.
  step_ok cpp_call_some.
  unfold bind at 1, get_context; simpl.
  erewrite bind_ok by apply for_each_add.
  erewrite bind_raise; [reflexivity |].
  unfold current_mpcd, bind, get_context; simpl. rewrite Hsys. reflexivity.
Qed.

Lemma update_methods_without_system_witness :
  fst (update_methods (Base := example_base)
         (mk_world (example_context None) example_integrator))
  = Raise AttributeError.
Proof.
  rewrite (update_methods_without_system (Base := example_base)
             (mk_world (example_context None) example_integrator)
             (Integrator 1%nat half) eq_refl eq_refl eq_refl).
  reflexivity.
Defined.

(* ------------------------------------------------------------------ *)
(** ** __init__: what a construction leaves behind *)

Section Construction.
Context `{Base : _integrator}.

(** [__init__] up to the point where [aniso] is looked at. *)
Lemma init_run (w w1 : world) (sys0 sys : mpcd_system)
    (d : pyfloat) (a : pyval) :
  mpcd (current w) = Some sys0 ->
  base_init w = (Ok tt, w1) ->
  mpcd (current w1) = Some sys ->
  __init__ d a w
  = if py_is_none a then (Ok tt, constructed w1 sys d a)
    else (quiet_status ;; set_params None a ;; unquiet_status)
           (constructed w1 sys d a).
Proof.
  intros H0 Hb H1. unfold __init__.
  unfold bind at 1, get_context. rewrite H0.
  unfold bind at 1, ret.
  erewrite bind_ok by exact Hb.
  destruct w1 as [ctx1 s1]. simpl in H1.
  cbv [set_supports_methods set_dt set_aniso set_metadata_fields modify_self].
  unfold bind at 1. unfold bind at 1. unfold bind at 1. unfold bind at 1.
  cbn [current self supports_methods dt aniso metadata_fields cpp_integrator].
  erewrite bind_ok by (apply current_mpcd_some; exact H1).
  unfold bind at 1, get_self. cbn [self dt].
  unfold bind at 1, set_cpp_integrator, modify_self.
  cbn [current self supports_methods dt aniso metadata_fields cpp_integrator].
  erewrite bind_ok by (apply current_mpcd_some; exact H1).
  unfold constructed, new_cpp.
  destruct (comm sys) as [k |].
  - erewrite bind_ok by (apply cpp_call_some; reflexivity).
    unfold bind at 1, system_setIntegrator, modify_context.
    unfold bind at 1. cbn [self aniso with_cpp].
    destruct (py_is_none a); reflexivity.
  - unfold bind at 1.
    unfold bind at 1, system_setIntegrator, modify_context.
    unfold bind at 1. cbn [self aniso].
    destruct (py_is_none a); reflexivity.
Qed.

End Construction.

(** X8: a construction that gets past the base class and is given no
    [aniso] returns normally with a fresh C++ integrator: the time step is
    [dt], the mode is automatic, no MD, streaming or collision method is
    attached, the communicator is the one of the MPCD system; the
    integrator is registered with the system and the Python attributes
    agree with the C++ object. *)
Theorem init_without_aniso `{Base : _integrator}
    (w w1 : world) (sys0 sys : mpcd_system) (d : pyfloat) :
  mpcd (current w) = Some sys0 ->
  base_init w = (Ok tt, w1) ->
  mpcd (current w1) = Some sys ->
  fst (__init__ d PyNone w) = Ok tt /\
  self (snd (__init__ d PyNone w))
  = mk_integrator true d PyNone ["dt"; "aniso"]
      (Some (mk_cpp (data sys) d Automatic [] None None (comm sys))) /\
  in_sync (self (snd (__init__ d PyNone w))) /\
  system_integrator (current (snd (__init__ d PyNone w))) = true /\
  msg (current (snd (__init__ d PyNone w))) = msg (current w1).
Proof.
  intros H0 Hb H1.
  rewrite (init_run w w1 sys0 sys d PyNone H0 Hb H1). simpl.
  assert (Hc : new_cpp sys d
               = mk_cpp (data sys) d Automatic [] None None (comm sys))
    by (unfold new_cpp; destruct (comm sys); reflexivity).
  rewrite Hc. repeat split.
  eexists. repeat split.
Qed.

Lemma init_without_aniso_witness :
  in_sync
    (self (snd (__init__ (Base := example_base) quarter PyNone
                  (fresh_world (Some (example_system None None)))))).
Proof.
  apply (init_without_aniso (Base := example_base)
           (fresh_world (Some (example_system None None)))
           (fresh_world (Some (example_system None None)))
           (example_system None None) (example_system None None) quarter
           eq_refl eq_refl eq_refl).
Defined.

(** X9: a construction with an [aniso] that [_aniso_modes] knows (and that
    is not [None]) runs [set_params] with the status output silenced and
    switched back on; the C++ integrator ends in the mode the dictionary
    gives, and the Python attributes agree with it. *)
Theorem init_with_known_aniso `{Base : _integrator}
    (w w1 : world) (sys0 sys : mpcd_system) (d : pyfloat) (a : pyval)
    (m : IntegratorAnisotropicMode) :
  mpcd (current w) = Some sys0 ->
  base_init w = (Ok tt, w1) ->
  mpcd (current w1) = Some sys ->
  a <> PyNone ->
  dict_get a _aniso_modes = Some m ->
  initialized (snd (print_status_line
                      (snd (quiet_status (constructed w1 sys d a))))) ->
  fst (__init__ d a w) = Ok tt /\
  self (snd (__init__ d a w))
  = mk_integrator true d a ["dt"; "aniso"]
      (Some (setAnisotropicMode m (new_cpp sys d))) /\
  in_sync (self (snd (__init__ d a w))) /\
  msg (current (snd (__init__ d a w)))
  = (msg (current w1) ++ [QuietStatus; PrintStatusLine; UnquietStatus])%list.
Proof.
  intros H0 Hb H1 Ha Hm Hinit.
  rewrite (init_run w w1 sys0 sys d a H0 Hb H1).
  destruct (py_is_none a) eqn:En; [destruct a; try discriminate; contradiction |].
  assert (Hrun :
    (quiet_status ;; set_params None a ;; unquiet_status)
      (constructed w1 sys d a)
    = (Ok tt,
       mk_world
         (logged (logged (logged (registered (current w1)) QuietStatus)
                         PrintStatusLine) UnquietStatus)
         (mk_integrator true d a ["dt"; "aniso"]
                        (Some (setAnisotropicMode m (new_cpp sys d)))))).
  { unfold constructed. unfold quiet_status at 1.
    erewrite bind_ok by apply emit_run.
    unfold bind at 1.
    rewrite (set_params_run (logged (registered (current w1)) QuietStatus)
               (mk_integrator true d a ["dt"; "aniso"] (Some (new_cpp sys d)))
               (new_cpp sys d) None a Hinit eq_refl).
    cbv zeta. rewrite En, Hm. reflexivity. }
  rewrite Hrun. simpl. repeat split.
  - exists (setAnisotropicMode m (new_cpp sys d)).
    split; [reflexivity |].
    split; [unfold new_cpp; destruct (comm sys); reflexivity | exact Hm].
  - rewrite <- !app_assoc. reflexivity.
Qed.

Lemma init_with_known_aniso_witness :
  self (snd (__init__ (Base := example_base) quarter (PyInt 0)
               (fresh_world (Some (example_system None None)))))
  = mk_integrator true quarter (PyInt 0) ["dt"; "aniso"]
      (Some (setAnisotropicMode Isotropic
               (new_cpp (example_system None None) quarter))).
Proof.
  apply (init_with_known_aniso (Base := example_base)
           (fresh_world (Some (example_system None None)))
           (fresh_world (Some (example_system None None)))
           (example_system None None) (example_system None None)
           quarter (PyInt 0) Isotropic
           eq_refl eq_refl eq_refl);
    [discriminate | reflexivity | reflexivity].
Defined.

(** X10: a construction with an [aniso] that [_aniso_modes] does not know
    fails with [RuntimeError] late: by then the C++ integrator exists and is
    registered with the system, the unknown value is stored in [aniso]
    while the C++ mode is still automatic, and the status output has been
    silenced and is never switched back on. *)
Theorem init_with_unknown_aniso_fails_late `{Base : _integrator}
    (w w1 : world) (sys0 sys : mpcd_system) (d : pyfloat) (a : pyval) :
  mpcd (current w) = Some sys0 ->
  base_init w = (Ok tt, w1) ->
  mpcd (current w1) = Some sys ->
  py_in a _aniso_modes = false ->
  initialized (snd (print_status_line
                      (snd (quiet_status (constructed w1 sys d a))))) ->
  fst (__init__ d a w) = Raise aniso_exception /\
  self (snd (__init__ d a w))
  = mk_integrator true d a ["dt"; "aniso"] (Some (new_cpp sys d)) /\
  system_integrator (current (snd (__init__ d a w))) = true /\
  msg (current (snd (__init__ d a w)))
  = (msg (current w1) ++ [QuietStatus; PrintStatusLine; aniso_error a])%list /\
  ~ in_sync (self (snd (__init__ d a w))).
Proof.
  intros H0 Hb H1 Ha Hinit.
  rewrite (init_run w w1 sys0 sys d a H0 Hb H1).
  unfold py_in in Ha.
  destruct (dict_get a _aniso_modes) as [m |] eqn:Em; [discriminate |].
  destruct (py_is_none a) eqn:En; [destruct a; discriminate |].
  assert (Hrun :
    (quiet_status ;; set_params None a ;; unquiet_status)
      (constructed w1 sys d a)
    = (Raise aniso_exception,
       mk_world
         (logged (logged (logged (registered (current w1)) QuietStatus)
                         PrintStatusLine) (aniso_error a))
         (mk_integrator true d a ["dt"; "aniso"] (Some (new_cpp sys d))))).
  { unfold constructed. unfold quiet_status at 1.
    erewrite bind_ok by apply emit_run.
    unfold bind at 1.
    rewrite (set_params_run (logged (registered (current w1)) QuietStatus)
               (mk_integrator true d a ["dt"; "aniso"] (Some (new_cpp sys d)))
               (new_cpp sys d) None a Hinit eq_refl).
    cbv zeta. rewrite En, Em. reflexivity. }
  rewrite Hrun. simpl. repeat split.
  - rewrite <- !app_assoc. reflexivity.
  - intros [c' [Hc [_ Hk]]].
    change (dict_get a _aniso_modes = Some (anisotropic_mode c')) in Hk.
    rewrite Em in Hk. discriminate Hk.
Qed.

Lemma init_with_unknown_aniso_fails_late_witness :
  fst (__init__ (Base := example_base) quarter (PyStr "on")
         (fresh_world (Some (example_system None None))))
  = Raise aniso_exception /\
  msg (current (snd (__init__ (Base := example_base) quarter (PyStr "on")
                       (fresh_world (Some (example_system None None))))))
  = [QuietStatus; PrintStatusLine; aniso_error (PyStr "on")].
Proof.
  destruct (init_with_unknown_aniso_fails_late (Base := example_base)
              (fresh_world (Some (example_system None None)))
              (fresh_world (Some (example_system None None)))
              (example_system None None) (example_system None None)
              quarter (PyStr "on")
              eq_refl eq_refl eq_refl eq_refl eq_refl)
    as [H1 [_ [_ [H4 _]]]].
  split; [exact H1 | exact H4].
Defined.

(* ------------------------------------------------------------------ *)
(** ** set_params: what it changes and what it keeps *)

(** X11: whatever its outcome, [set_params] leaves the methods of the C++
    integrator, its particle data and communicator, the other attributes of
    the Python object and the context (message log apart) as they were; and
    an argument that is left out ([None]) leaves its parameter alone. *)
Theorem set_params_frame `{Base : _integrator}
    (w : world) (c : cpp_integrator_t) (new_dt : option pyfloat) (a : pyval) :
  initialized (snd (print_status_line w)) ->
  cpp_integrator (self w) = Some c ->
  exists c' : cpp_integrator_t,
    cpp_integrator (self (snd (set_params new_dt a w))) = Some c' /\
    (cpp_methods c' = cpp_methods c /\
     streaming_method c' = streaming_method c /\
     collision_method c' = collision_method c /\
     mpcd_data c' = mpcd_data c /\
     mpcd_communicator c' = mpcd_communicator c) /\
    (supports_methods (self (snd (set_params new_dt a w)))
     = supports_methods (self w) /\
     metadata_fields (self (snd (set_params new_dt a w)))
     = metadata_fields (self w)) /\
    same_setup (current (snd (set_params new_dt a w))) (current w) /\
    (new_dt = None ->
     dt (self (snd (set_params new_dt a w))) = dt (self w) /\
     deltaT c' = deltaT c) /\
    (a = PyNone ->
     aniso (self (snd (set_params new_dt a w))) = aniso (self w) /\
     anisotropic_mode c' = anisotropic_mode c).
Proof.
  intros Hinit Hcpp.
  rewrite after_status_line in Hinit.
  rewrite (world_eta w).
  rewrite (set_params_run _ _ c new_dt a Hinit Hcpp). cbv zeta.
  destruct (py_is_none a) eqn:En;
    [| destruct (dict_get a _aniso_modes) as [m |]];
    destruct new_dt as [d |];
    simpl; eexists;
    (split; [ first [reflexivity | exact Hcpp] |]);
    repeat match goal with |- _ /\ _ => split end;
    try reflexivity;
    try (repeat split; fail);
    try (intros H; discriminate H);
    try (intros _; split; reflexivity);
    try (intros ->; discriminate En).
Qed.

Lemma set_params_frame_witness :
  exists c' : cpp_integrator_t,
    cpp_integrator
      (self (snd (set_params (Base := example_base) (Some quarter) PyNone
                    (snd (update_methods (Base := example_base)
                            (example_world (Some stream2) (Some collide4)))))))
    = Some c' /\
    cpp_methods c' = [7%nat; 8%nat] /\
    streaming_method c' = Some 11%nat /\
    collision_method c' = Some 12%nat.
Proof.
  destruct (set_params_frame (Base := example_base)
              (snd (update_methods (Base := example_base)
                      (example_world (Some stream2) (Some collide4))))
              (mk_cpp 1%nat half Automatic [7%nat; 8%nat]
                      (Some 11%nat) (Some 12%nat) None)
              (Some quarter) PyNone eq_refl eq_refl)
    as [c' [H1 [[H2 [H3 [H4 _]]] _]]].
  exists c'. repeat split; assumption.
Defined.



(** X13: [set_params] can select the anisotropic and the isotropic mode
    only.  The entry of [_aniso_modes] for [None] is never reached, because
    [aniso=None] means that the argument is left out: a call changes the
    mode of the C++ integrator only for an [aniso] other than [None], and
    then never to the automatic mode. *)
Theorem set_params_never_selects_automatic `{Base : _integrator}
    (w : world) (c c' : cpp_integrator_t)
    (new_dt : option pyfloat) (a : pyval) :
  initialized (snd (print_status_line w)) ->
  cpp_integrator (self w) = Some c ->
  cpp_integrator (self (snd (set_params new_dt a w))) = Some c' ->
  anisotropic_mode c' <> anisotropic_mode c ->
  a <> PyNone /\
  anisotropic_mode c' <> Automatic /\
  dict_get a _aniso_modes = Some (anisotropic_mode c').
Proof.
  intros Hinit Hcpp.
  rewrite after_status_line in Hinit.
  rewrite (world_eta w).
  rewrite (set_params_run _ _ c new_dt a Hinit Hcpp). cbv zeta.
  destruct (py_is_none a) eqn:En.
  - destruct new_dt as [d |]; simpl; intros Hc' Hne.
    + injection Hc' as <-. contradiction Hne. reflexivity.
    + rewrite Hcpp in Hc'. injection Hc' as <-. contradiction Hne. reflexivity.
  - destruct (dict_get a _aniso_modes) as [m |] eqn:Em.
    + simpl. intros Hc' Hne. injection Hc' as <-.
      destruct new_dt as [d |]; simpl in *;
        (split; [intros ->; discriminate En |]);
        (split; [| reflexivity]);
        destruct a as [| [|] | z | s]; try discriminate;
        simpl in Em;
        try (injection Em as <-; discriminate);
        destruct (z =? 1); try (injection Em as <-; discriminate);
        destruct (z =? 0); try (injection Em as <-; discriminate);
        discriminate.
    + destruct new_dt as [d |]; simpl; intros Hc' Hne.
      * injection Hc' as <-. contradiction Hne. reflexivity.
      * rewrite Hcpp in Hc'. injection Hc' as <-. contradiction Hne. reflexivity.
Qed.

Lemma set_params_never_selects_automatic_witness :
  PyBool true <> PyNone /\
  Anisotropic <> Automatic /\
  dict_get (PyBool true) _aniso_modes = Some Anisotropic.
Proof.
  apply (set_params_never_selects_automatic (Base := example_base)
           (example_world (Some stream2) (Some collide4))
           (Integrator 1%nat half)
           (setAnisotropicMode Anisotropic (Integrator 1%nat half))
           None (PyBool true) eq_refl eq_refl eq_refl).
  discriminate.
Defined.

(** X14: among the values [None], [bool], [int] and [str], the keys the
    test [aniso in self._aniso_modes] accepts are [None], [True], [False]
    and, since Python compares [1 == True] and [0 == False], the integers 1
    and 0, which select the anisotropic and the isotropic mode; every
    string and every other integer is rejected. *)
Theorem aniso_modes_keys (a : pyval) (m : IntegratorAnisotropicMode) :
  dict_get a _aniso_modes = Some m <->
  (a = PyNone /\ m = Automatic) \/
  ((a = PyBool true \/ a = PyInt 1) /\ m = Anisotropic) \/
  ((a = PyBool false \/ a = PyInt 0) /\ m = Isotropic).
Proof.
  split.
  - destruct a as [| [|] | z | s]; simpl.
    + intros H; injection H as <-. auto.
    + intros H; injection H as <-. auto.
    + intros H; injection H as <-. auto.
    + destruct (Z.eqb_spec z 1) as [-> | H1].
      * intros H; injection H as <-. auto.
      * destruct (Z.eqb_spec z 0) as [-> | H0].
        -- intros H; injection H as <-. auto.
        -- discriminate.
    + discriminate.
  - intros [[-> ->] | [[[-> | ->] ->] | [[-> | ->] ->]]]; reflexivity.
Qed.

Lemma aniso_modes_keys_witness :
  dict_get (PyInt 1) _aniso_modes = Some Anisotropic.
Proof.
  apply (proj2 (aniso_modes_keys (PyInt 1) Anisotropic)).
  right. left. split; [right |]; reflexivity.
Defined.

(** X15: one call of [set_params] with both arguments leaves the integrator
    as two calls do, the first with [dt] alone and the second with [aniso]
    alone, and ends the same way (normally, or with the [RuntimeError] of an
    unknown [aniso]). *)
Theorem set_params_splits `{Base : _integrator}
    (w : world) (c : cpp_integrator_t) (d : pyfloat) (a : pyval) :
  initialized (snd (print_status_line w)) ->
  cpp_integrator (self w) = Some c ->
  initialized (snd (print_status_line (snd (set_params (Some d) PyNone w)))) ->
  fst (set_params None a (snd (set_params (Some d) PyNone w)))
  = fst (set_params (Some d) a w) /\
  self (snd (set_params None a (snd (set_params (Some d) PyNone w))))
  = self (snd (set_params (Some d) a w)).
Proof.
  intros Hinit Hcpp.
  rewrite after_status_line in Hinit.
  rewrite (world_eta w).
  assert (Hfirst :
    set_params (Some d) PyNone (mk_world (current w) (self w))
    = (Ok tt,
       mk_world (logged (current w) PrintStatusLine) (with_dt (self w) c d)))
    by (rewrite (set_params_run _ _ c (Some d) PyNone Hinit Hcpp);
        reflexivity).
  rewrite Hfirst. clear Hfirst. cbn [snd].
  rewrite (set_params_run _ _ c (Some d) a Hinit Hcpp). cbv zeta.
  intros Hinit'.
  rewrite (set_params_run (logged (current w) PrintStatusLine)
             (with_dt (self w) c d) (setDeltaT d c) None a Hinit' eq_refl).
  cbv zeta.
  destruct (py_is_none a);
    [| destruct (dict_get a _aniso_modes) as [m |]]; split; reflexivity.
Qed.

Lemma set_params_splits_witness :
  self (snd (set_params (Base := example_base) None (PyBool true)
               (snd (set_params (Base := example_base) (Some quarter) PyNone
                       (example_world (Some stream2) (Some collide4))))))
  = self (snd (set_params (Base := example_base) (Some quarter) (PyBool true)
                 (example_world (Some stream2) (Some collide4)))).
Proof.
  apply (set_params_splits (Base := example_base)
           (example_world (Some stream2) (Some collide4))
           (Integrator 1%nat half) quarter (PyBool true)
           eq_refl eq_refl eq_refl).
Defined.
